(** * ADK Auto Anchor: the response normalizer and the endpoint invokers

    A shallow embedding of [src/functions.py] (the exception class
    [APIClientError], [handle_api_response] and the [call_*] request
    builders) and of the tool list of [src/agent.py], followed by the
    properties of the specification that concern them.

    Python values are embedded as follows.
    - A decoded JSON document is a [json_value]; a Python [dict] keeps its
      insertion order, so it is an association list (the keys of a decoded
      document are distinct, and a lookup returns the entry of the key).
    - A Python [str] is a [string]; a character is a code point below 256.
    - A Python [float] is carried by its [repr], the only thing the code
      ever does with one.
    - An exception is an explicit outcome: [handle_api_response] either
      returns a value, raises [APIClientError], or lets another Python
      exception escape. *)

From Stdlib Require Import ZArith Ascii String.
From stdpp Require Import base option list strings pretty gmap.

Local Open Scope Z_scope.

(** ** Decoded JSON documents *)

#[warnings="-register-all"]
Inductive json_value : Type :=
  | JNull
  | JBool (b : bool)
  | JInt (n : Z)
  | JFloat (repr : string)
  | JStr (s : string)
  | JList (l : list json_value)
  | JDict (d : list (string * json_value)).

(** [isinstance(v, dict)], [isinstance(v, list)], [v is None]. *)
Definition is_dict (v : json_value) : bool :=
  match v with JDict _ => true | _ => false end.

Definition is_list (v : json_value) : bool :=
  match v with JList _ => true | _ => false end.

Definition is_None (v : json_value) : bool :=
  match v with JNull => true | _ => false end.

(** [v == s] for a string literal [s]: only an equal string compares equal. *)
Definition py_eq_str (v : json_value) (s : string) : bool :=
  match v with JStr t => String.eqb t s | _ => false end.

(** Lookup of a key in a dict. *)
Fixpoint dict_lookup (d : list (string * json_value)) (k : string)
  : option json_value :=
  match d with
  | [] => None
  | (k', v) :: d' => if String.eqb k' k then Some v else dict_lookup d' k
  end.

(** [k in d] *)
Definition dict_contains (d : list (string * json_value)) (k : string) : bool :=
  match dict_lookup d k with Some _ => true | None => false end.

(** [d.get(k, dflt)]; [d.get(k)] is [d.get(k, None)]. *)
Definition dict_get (d : list (string * json_value)) (k : string)
    (dflt : json_value) : json_value :=
  match dict_lookup d k with Some v => v | None => dflt end.

(** ** [str] and [repr] of decoded documents *)

Definition quote1 : ascii := ascii_of_N 39.   (* ' *)
Definition quote2 : ascii := ascii_of_N 34.   (* the double quote *)
Definition backslash : ascii := ascii_of_N 92.

Fixpoint str_mem (c : ascii) (s : string) : bool :=
  match s with
  | EmptyString => false
  | String c' s' => Ascii.eqb c c' || str_mem c s'
  end.

Definition hex_digit (n : N) : ascii :=
  (if n <? 10 then ascii_of_N (48 + n) else ascii_of_N (87 + n))%N.

Definition hex_escape (n : N) : string :=
  String backslash (String "x" (String (hex_digit (n / 16))
    (String (hex_digit (n mod 16)) EmptyString))).

(** The characters below 256 that [repr] writes as they are. *)
Definition printable (n : N) : bool :=
  ((32 <=? n) && (n <? 127) || (161 <=? n) && negb (n =? 173))%N.

Definition repr_char (quote c : ascii) : string :=
  let n := N_of_ascii c in
  if Ascii.eqb c quote || Ascii.eqb c backslash
  then String backslash (String c EmptyString)
  else if (n =? 9)%N then String backslash "t"
  else if (n =? 10)%N then String backslash "n"
  else if (n =? 13)%N then String backslash "r"
  else if printable n then String c EmptyString
  else hex_escape n.

Fixpoint repr_chars (quote : ascii) (s : string) : string :=
  match s with
  | EmptyString => EmptyString
  | String c s' => repr_char quote c +:+ repr_chars quote s'
  end.

(** [repr(s)] of a string: single quotes, unless the string holds a single
    quote and no double quote. *)
Definition repr_str (s : string) : string :=
  let quote := if str_mem quote1 s && negb (str_mem quote2 s)
               then quote2 else quote1 in
  String quote (repr_chars quote s) +:+ String quote EmptyString.

Fixpoint py_repr (v : json_value) : string :=
  match v with
  | JNull => "None"
  | JBool true => "True"
  | JBool false => "False"
  | JInt n => pretty n
  | JFloat r => r
  | JStr s => repr_str s
  | JList l => "[" +:+ String.concat ", " (map py_repr l) +:+ "]"
  | JDict d =>
      "{" +:+ String.concat ", "
                (map (fun kv => repr_str (fst kv) +:+ ": " +:+ py_repr (snd kv)) d)
          +:+ "}"
  end.

(** [str(v)], which is also what an f-string field [{v}] inserts. *)
Definition py_str (v : json_value) : string :=
  match v with
  | JStr s => s
  | _ => py_repr v
  end.

(** ** Python exceptions other than [APIClientError] *)

Inductive py_exception : Type :=
  | AttributeError
  | IndexError
  | KeyError
  | TypeError.

(** A computation that returns a value or raises a Python exception. *)
Inductive py (A : Type) : Type :=
  | Ok (a : A)
  | Exn (e : py_exception).
Arguments Ok {A} a.
Arguments Exn {A} e.

#[global] Instance py_ret : MRet py := fun A a => Ok a.

#[global] Instance py_bind : MBind py := fun A B f m =>
  match m with
  | Ok a => f a
  | Exn e => Exn e
  end.

(** The elements of a list comprehension are evaluated from left to right,
    and the first exception ends it. *)
Definition py_for {A B : Type} (f : A -> py B) (l : list A) : py (list B) :=
  mapM f l.

(** [v.get(k, dflt)]: only a dict has the method. *)
Definition py_get (v : json_value) (k : string) (dflt : json_value)
  : py json_value :=
  match v with
  | JDict d => Ok (dict_get d k dflt)
  | _ => Exn AttributeError
  end.

Fixpoint str_last (s : string) : option ascii :=
  match s with
  | EmptyString => None
  | String c EmptyString => Some c
  | String _ s' => str_last s'
  end.

(** [v[-1]]: the last element of a list or of a string; a dict is asked for
    the key [-1], which no decoded document has; the other values are not
    subscriptable. *)
Definition py_last (v : json_value) : py json_value :=
  match v with
  | JList l =>
      match last l with Some x => Ok x | None => Exn IndexError end
  | JStr s =>
      match str_last s with
      | Some c => Ok (JStr (String c EmptyString))
      | None => Exn IndexError
      end
  | JDict _ => Exn KeyError
  | _ => Exn TypeError
  end.

(** ** The raw response and the error raised for it *)

(** What the code reads of a [requests.Response]: [json] is [None] when
    [response.json()] raises [json.JSONDecodeError]. *)
Module Response.
Record t : Type := mk {
  status_code : Z;
  reason : string;
  url : string;
  text : string;
  json : option json_value
}.
End Response.

(** [requests.exceptions.HTTPError], with the message of its [str] and its
    [response] attribute. *)
Module HTTPError.
Record t : Type := mk {
  args : string;
  response : Response.t
}.
End HTTPError.

(** [Response.raise_for_status] of the requests library: [Some] is the
    [HTTPError] it raises, [None] a normal return. *)
Definition raise_for_status (self : Response.t) : option HTTPError.t :=
  let code := Response.status_code self in
  let http_error_msg :=
    if (400 <=? code) && (code <? 500)
    then pretty code +:+ " Client Error: " +:+ Response.reason self
           +:+ " for url: " +:+ Response.url self
    else if (500 <=? code) && (code <? 600)
    then pretty code +:+ " Server Error: " +:+ Response.reason self
           +:+ " for url: " +:+ Response.url self
    else EmptyString in
  match http_error_msg with
  | EmptyString => None
  | _ => Some (HTTPError.mk http_error_msg self)
  end.

(** The value given as [response_data]: nothing, a decoded document, or the
    response object itself. *)
Inductive payload : Type :=
  | NoPayload
  | Document (data : json_value)
  | ResponseObject (r : Response.t).

(** [class APIClientError(Exception)]. The message is whatever value the
    constructor is given, a string or any decoded value. *)
Module APIClientError.
Record t : Type := mk {
  message : json_value;
  status_code : option Z;
  response_data : payload
}.
End APIClientError.

(** How a call of [handle_api_response] ends. *)
Inductive outcome : Type :=
  | Returns (data : json_value)
  | Raises (e : APIClientError.t)
  | Escapes (e : py_exception).

(** ** [handle_api_response] *)

(** Line 101: one element of the list comprehension,
    [f"{err.get('loc', ['unknown_field'])[-1]}: {err.get('msg', '')}"]. *)
Definition format_validation_error (err : json_value) : py string :=
  loc ← py_get err "loc" (JList [JStr "unknown_field"]);
  field ← py_last loc;
  msg ← py_get err "msg" (JStr EmptyString);
  mret (py_str field +:+ ": " +:+ py_str msg).

(** Line 98-99: the test that [detail] is a list of validation errors; only
    its first element is looked at. *)
Definition is_validation_errors (message : json_value) : bool :=
  match message with
  | JList (JDict first :: _) =>
      dict_contains first "loc" && dict_contains first "msg"
  | _ => false
  end.

(** Lines 89-110: the message extracted from an error response. *)
Definition error_message_of (response : Response.t) (http_err : HTTPError.t)
  : py json_value :=
  match Response.json response with
  | Some err_data =>
      match err_data with
      | JDict d =>
          let message := dict_get d "error_message" JNull in
          message ←
            (if is_None message then
               let message := dict_get d "detail" JNull in
               if is_validation_errors message then
                 match message with
                 | JList errs =>
                     parts ← py_for format_validation_error errs;
                     mret (JStr (String.concat "; " parts))
                 | _ => mret message
                 end
               else mret message
             else mret message);
          if is_None message then mret (JStr (py_str err_data))
          else mret message
      | _ => mret (JStr (py_str err_data))
      end
  | None =>
      mret (JStr (match Response.text response with
                  | EmptyString => HTTPError.args http_err
                  | txt => "HTTP error: " +:+ txt
                  end))
  end.

(** Lines 29-112. The clause of lines 114-116, for a [RequestException]
    that is not an [HTTPError], has no part here: [raise_for_status] raises
    an [HTTPError] only, and the [json()] of a [Response.t] returns a value
    or raises [JSONDecodeError]. *)
Definition handle_api_response (response : Response.t) : outcome :=
  match raise_for_status response with
  | None =>
      match Response.json response with
      | None =>
          Raises (APIClientError.mk
            (JStr ("Failed to decode JSON response from successful HTTP call: "
                   +:+ Response.text response))
            (Some (Response.status_code response)) NoPayload)
      | Some data =>
          match data with
          | JDict d =>
              let api_status := dict_get d "status" JNull in
              if py_eq_str api_status "error" then
                let error_message :=
                  dict_get d "error_message"
                    (JStr "Unknown API error: 'status' is 'error' but 'error_message' is missing.") in
                Raises (APIClientError.mk error_message
                          (Some (Response.status_code response)) (Document data))
              else if py_eq_str api_status "success" then
                Returns data
              else if is_None api_status then
                match dict_lookup d "error_message" with
                | Some error_message =>
                    Raises (APIClientError.mk error_message
                              (Some (Response.status_code response)) (Document data))
                | None => Returns data
                end
              else
                Raises (APIClientError.mk
                  (JStr ("API response has an unexpected 'status' field value: '"
                         +:+ py_str api_status +:+ "'"))
                  (Some (Response.status_code response)) (Document data))
          | _ => Returns data
          end
      end
  | Some http_err =>
      match error_message_of response http_err with
      | Ok message =>
          Raises (APIClientError.mk message
                    (Some (Response.status_code response))
                    (ResponseObject (HTTPError.response http_err)))
      | Exn e => Escapes e
      end
  end.

(** ** The endpoint invokers *)

Definition BASE_URL : string := "http://127.0.0.1:8084".

Inductive http_method : Type := GET | POST.

(** The arguments of [requests.get] and [requests.post]: the address, the
    [params] dict of the query string and the [json] dict of the body, each
    [None] when the call does not pass it. *)
Module Request.
Record t : Type := mk {
  method : http_method;
  endpoint : string;
  params : option (gmap string string);
  json : option (gmap string string)
}.
End Request.

(** [if arg: params[k] = arg]: [None] and the empty string are falsy. *)
Definition set_if_truthy (k : string) (arg : option string)
    (params : gmap string string) : gmap string string :=
  match arg with
  | Some (String c s) => <[k := String c s]> params
  | _ => params
  end.

(** [if arg is not None: payload[k] = arg] *)
Definition set_if_not_None (k : string) (arg : option string)
    (payload : gmap string string) : gmap string string :=
  match arg with
  | Some v => <[k := v]> payload
  | None => payload
  end.

(** Lines 254-260 of [call_jenkinsfile_gen]: the request it issues. *)
Definition jenkinsfile_gen_request (folder_path : string)
    (app_name port version : option string) : Request.t :=
  let endpoint := BASE_URL +:+ "/jenkinsfile-gen" in
  let params : gmap string string := {[ "folder_path" := folder_path ]} in
  let params := set_if_truthy "app_name" app_name params in
  let params := set_if_truthy "port" port params in
  let params := set_if_truthy "version" version params in
  Request.mk GET endpoint (Some params) None.

(** Lines 178-185 of [call_analyzer]: the request it issues. The arguments
    are tested against [None], so they are optional values here. *)
Definition analyzer_request (folder_path environment_path : option string)
  : Request.t :=
  let endpoint := BASE_URL +:+ "/analyzer" in
  let payload : gmap string string := ∅ in
  let payload := set_if_not_None "folder_path" folder_path payload in
  let payload := set_if_not_None "environment_path" environment_path payload in
  Request.mk POST endpoint None (Some payload).

Section Invokers.
(** The network: the response the server gives to a request. *)
Variable send : Request.t -> Response.t.

Definition call_jenkinsfile_gen (folder_path : string)
    (app_name port version : option string) : outcome :=
  let response := send (jenkinsfile_gen_request folder_path app_name port version) in
  handle_api_response response.

Definition call_analyzer (folder_path environment_path : option string)
  : outcome :=
  let response := send (analyzer_request folder_path environment_path) in
  handle_api_response response.
End Invokers.

(** The value a request carries for a query parameter or for a field of its
    JSON body, [None] when it carries none. *)
Definition query_param (req : Request.t) (k : string) : option string :=
  Request.params req ≫= (.!! k).

Definition body_field (req : Request.t) (k : string) : option string :=
  Request.json req ≫= (.!! k).

(** ** The documentation of the invokers *)

Definition newline : string := String (ascii_of_N 10) EmptyString.

(** The docstrings are written with ^ where the source has a double quote. *)
Fixpoint unquote (s : string) : string :=
  match s with
  | EmptyString => EmptyString
  | String c s' =>
      String (if Ascii.eqb c (ascii_of_N 94) then quote2 else c) (unquote s')
  end.

(** A docstring from its lines. *)
Definition docstring (lines : list string) : string :=
  unquote (String.concat newline lines).

(** The docstring of each invoker, [__doc__] with the indentation of the
    source taken off (as [inspect.cleandoc] and [help] show it). *)
Module Doc.
Definition call_save_keys : string :=
  docstring
    [ "Saves public and private keys to the server. The private key must be base64 encoded.";
      EmptyString;
      "Args:";
      "    public_key (str): The public SSH key.";
      "    private_key (str): The base64 encoded private SSH key.";
      EmptyString;
      "Returns:";
      "    dict: API response.";
      "          Example success: `{^success^: True, ^message^: ^Keys saved securely to file.^}`";
      "          Example error: `{^success^: False, ^error^: ^Error details^}`";
      EmptyString;
      "Raises:";
      "    APIClientError: If the API call fails or returns an error." ].

Definition call_get_keys : string :=
  docstring
    [ "Retrieves the saved public and private keys from the server.";
      "The returned private key will be base64 encoded.";
      EmptyString;
      "Returns:";
      "    dict: API response.";
      "          Example success: `{^success^: True, ^keys^: {^public_key^: ^...^, ^private_key^: ^base64encodedkey^}}`";
      "          Example error: `{^success^: False, ^error^: ^Error details^}`";
      EmptyString;
      "Raises:";
      "    APIClientError: If the API call fails or returns an error." ].

Definition call_analyzer : string :=
  docstring
    [ "Analyzes Python files in a specified directory to identify dependencies,";
      "generate a requirements file, and extract contextual information like";
      "app type, working directory, and entry point.";
      EmptyString;
      "Args:";
      "    folder_path (str): The path to the folder to analyze.";
      "                                 Server-side logic might require this.";
      "    environment_path (str): Path to the Python environment";
      "                                      to help resolve dependencies.";
      EmptyString;
      "Returns:";
      "    dict: API response.";
      "          Example success: `{^success^: True, ^app_type^: ^streamlit^, ^environment_path^: ^/path/env^, ^work_dir^: ^/app^, ^entrypoint^: ^run.py^}`";
      "          Example error: `{^success^: False, ^error^: ^Analyzer error: folder_path is required.^}`";
      EmptyString;
      "Raises:";
      "    APIClientError: If the API call fails or returns an error." ].

Definition call_get_creds : string :=
  docstring
    [ "Fetches AWS credentials and configurations like key pairs, regions, VPCs,";
      "subnets, and security groups that are configured for the server environment.";
      EmptyString;
      "Returns:";
      "    dict: API response.";
      "          Example success: `{^success^: True, ^aws_key_pairs^: [...], ^aws_region^: ^us-west-2^, ...}`";
      "          Example error: `{^success^: False, ^error^: ^Error getting AWS creds: details^}`";
      EmptyString;
      "Raises:";
      "    APIClientError: If the API call fails or returns an error." ].

Definition call_dockerfile_gen : string :=
  docstring
    [ "Generates a Dockerfile based on the specified application context data.";
      EmptyString;
      "Args:";
      "    app_type (str): Type of the application (e.g., 'streamlit', 'fastapi'). Required.";
      "    python_version (str): Python version to use (e.g., '3.9'). Required.";
      "    work_dir (str): The working directory path inside the Docker container (e.g., '/app'). Required.";
      "    entrypoint (str): Entrypoint script for the application (e.g., 'app.py'). Required.";
      "    folder_path (str): The server-side folder path where the Dockerfile will be generated. Required.";
      EmptyString;
      "Returns:";
      "    dict: API response.";
      "          Example success: `{^success^: True, ^message^: ^Dockerfile generated in /path/to/folder^}`";
      "          Example error: `{^success^: False, ^error^: ^Dockerfile generation error: details^}`";
      EmptyString;
      "Raises:";
      "    APIClientError: If the API call fails or returns an error." ].

Definition call_jenkinsfile_gen : string :=
  docstring
    [ "Generates a Jenkinsfile in the specified server-side folder path.";
      "Optionally, app_name, port, and version can be provided if the server supports them as query parameters.";
      EmptyString;
      "Args:";
      "    folder_path (str): The server-side folder path where the Jenkinsfile will be generated. Required.";
      "    app_name (Optional[str]): Name of the application (e.g., ^Streamlit-App^).";
      "    port (Optional[str]): Port the application runs on (e.g., '8501').";
      "    version (Optional[str]): Version tag for the application (e.g., ^v1^).";
      EmptyString;
      "Returns:";
      "    dict: API response.";
      "          Example success: `{^success^: True, ^message^: ^Jenkinsfile generated in /path/to/folder^}`";
      "          Example error: `{^success^: False, ^error^: ^Jenkinsfile generation error: details^}`";
      EmptyString;
      "Raises:";
      "    APIClientError: If the API call fails or returns an error." ].

Definition call_infra : string :=
  docstring
    [ "Generates Terraform infrastructure configurations and can trigger an initial setup";
      "for the user's requested infrastructure based on the specified working directory and instance size.";
      EmptyString;
      "Args:";
      "    work_dir (str): The server-side working directory path for Terraform operations. Required.";
      "    instance_size (str): The EC2 instance size (e.g., 't2.micro', 't3.medium'). Required.";
      EmptyString;
      "Returns:";
      "    dict: API response.";
      "          Example success: `{^success^: True, ^message^: ^Infrastructure setup process initiated successfully.^}`";
      "          Example error: `{^success^: False, ^error^: ^Infra setup error: details^}`";
      EmptyString;
      "Raises:";
      "    APIClientError: If the API call fails or returns an error." ].

Definition call_get_environments : string :=
  docstring
    [ "Retrieves available Python versions found in a specified server-side directory.";
      "This can include system Python, conda environments, or brew environments scanned by the server.";
      EmptyString;
      "Args:";
      "    folder_path (str): The server-side folder path to scan for Python environments. Required.";
      EmptyString;
      "Returns:";
      "    dict: API response.";
      "          Example success: `{^success^: True, ^python_versions^: [^3.8^, ^3.9.7^]}`";
      "          Example error: `{^success^: False, ^error^: ^Error getting environments: details^}`";
      EmptyString;
      "Raises:";
      "    APIClientError: If the API call fails or returns an error." ].

Definition call_github_webhook_setup : string :=
  docstring
    [ "Sets up a GitHub webhook for a repository associated with the specified server-side folder path.";
      "This typically requires prior configuration of GitHub credentials on the server.";
      EmptyString;
      "Args:";
      "    folder_path (str): The server-side path to the folder (Git repository)";
      "                       for which the GitHub webhook needs to be set up. Required.";
      EmptyString;
      "Returns:";
      "    dict: API response.";
      "          Example success: `{^success^: True, ^message^: ^Webhook setup process completed.^, ^details^: ^Webhook created with ID 12345^}`";
      "          Example error: `{^success^: False, ^error^: ^GitHub webhook setup error: details^}`";
      EmptyString;
      "Raises:";
      "    APIClientError: If the API call fails or returns an error." ].

Definition call_acube_cicd_plan : string :=
  docstring
    [ "Generates a CI/CD plan using the Acube orchestrator based on a user request and service type.";
      "May involve IAM checks and LLM interactions on the server side.";
      EmptyString;
      "Args:";
      "    user_request (str): The user's natural language request or objective for the CI/CD pipeline.";
      "    service_type (str): The type of service or application (e.g., ^streamlit^, ^aws-lambda^).";
      EmptyString;
      "Returns:";
      "    dict: API response.";
      "          Example success: `{^success^: True, ^Reasoning_Steps^: [...], ^Tool_Execution_Order^: [...]}`";
      "          Example IAM fail: `{^success^: False, ^error_type^: ^Credential Error^, ^IAM_Check_Details^: {...}}`";
      "          Example general error: `{^success^: False, ^error^: ^Error generating CICD plan: details^}`";
      EmptyString;
      "Raises:";
      "    APIClientError: If the API call fails or returns an error." ].

Definition call_acube_dynamic_question : string :=
  docstring
    [ "Retrieves a dynamic question for a specific tool within the Acube interactive flow.";
      "The question generated depends on the tool's state and previously provided answers.";
      EmptyString;
      "Args:";
      "    tool_name (str): The name of the tool for which to get the dynamic question (e.g., ^analyzer^, ^dockerfile-gen^).";
      EmptyString;
      "Returns:";
      "    dict: API response.";
      "          Example success: `{^success^: True, ^analyzer^: ^Which folder path do you want to analyze?^}` or `{^success^: True, ^dockerfile-gen^: ^Pass^}` (if no question needed)";
      "          Example error: `{^success^: False, ^error^: ^Tool 'X' configuration not found.^}`";
      EmptyString;
      "Raises:";
      "    APIClientError: If the API call fails or returns an error." ].

Definition call_acube_answer_validator : string :=
  docstring
    [ "Validates a user's answer provided for a specific tool's dynamic question in the Acube flow.";
      "The server uses an LLM to parse and validate the answer against the tool's requirements.";
      EmptyString;
      "Args:";
      "    tool_name (str): The name of the tool for which the answer is being validated.";
      "    answer (str): The user's natural language answer to the tool's question.";
      EmptyString;
      "Returns:";
      "    dict: API response.";
      "          Example success: `{^success^: True, ^variables^: {^folder_path^: ^/tmp^, ^app_type^: ^streamlit^}}`";
      "          Example error: `{^success^: False, ^error^: ^Validation error: Could not extract X from your answer.^}`";
      EmptyString;
      "Raises:";
      "    APIClientError: If the API call fails or returns an error." ].

Definition call_dashboard_file_data : string :=
  docstring
    [ "Retrieves the content of pre-defined generated files (like Dockerfile, Jenkinsfile, etc.)";
      "from a server-configured location, intended for display on a dashboard.";
      EmptyString;
      "Returns:";
      "    dict: API response.";
      "          Example success: `{^success^: True, ^files_data^: [{^filename^: ^Dockerfile^, ^content^: ^...^}, ...]}`";
      "          Example empty: `{^success^: True, ^message^: ^No relevant files found to display.^, ^files_data^: []}`";
      "          Example error: `{^success^: False, ^error^: ^'folder_path' not specified in server config.^}`";
      EmptyString;
      "Raises:";
      "    APIClientError: If the API call fails or returns an error." ].

Definition call_edit_file : string :=
  docstring
    [ "Requests the server to edit a specified file's content based on a natural language prompt,";
      "likely using an LLM. The server then attempts to write the updated code back to the file.";
      EmptyString;
      "Args:";
      "    filename (str): The name of the file (relative to a server-defined base path) to be edited.";
      "    original_code (str): The current/original content of the file.";
      "    prompt (str): The natural language prompt describing the desired changes.";
      EmptyString;
      "Returns:";
      "    dict: API response.";
      "          Example success: `{^success^: True, ^message^: ^File 'X' updated successfully.^, ^status_detail^: ^Write successful^}`";
      "          Example error: `{^success^: False, ^error^: ^Failed to get updated code from LLM.^}`";
      EmptyString;
      "Raises:";
      "    APIClientError: If the API call fails or returns an error." ].

Definition call_get_instance_ip : string :=
  docstring
    [ "Retrieves the public IP address of an EC2 instance, typically one that was";
      "provisioned or managed via operations related to the given server-side working directory.";
      EmptyString;
      "Args:";
      "    work_dir (str): The server-side working directory associated with the instance";
      "                    (e.g., where Terraform state might be located). Required.";
      EmptyString;
      "Returns:";
      "    dict: API response.";
      "          Example success: `{^success^: True, ^public_ip^: ^12.34.56.78^}`";
      "          Example error: `{^success^: False, ^error^: ^Failed to retrieve instance IP. It might not be available yet.^}`";
      EmptyString;
      "Raises:";
      "    APIClientError: If the API call fails or returns an error." ].

End Doc.

(** ** The orchestrator agent *)

(** The signature of an invoker, as the agent framework reads it off the
    function: its name, and its arguments with whether each is required
    (a required argument is annotated [str], an optional one
    [Optional[str]] with the default [None]); the endpoint the function
    calls; and its docstring. *)
Module Tool.
Record t : Type := mk {
  name : string;
  arguments : list (string * bool);
  method : http_method;
  path : string;
  doc : string
}.

Definition call_save_keys : t :=
  mk "call_save_keys" [("public_key", true); ("private_key", true)]
     POST "/api/save-keys"
     Doc.call_save_keys.
Definition call_get_keys : t :=
  mk "call_get_keys" [] GET "/api/get-keys"
     Doc.call_get_keys.
Definition call_analyzer : t :=
  mk "call_analyzer" [("folder_path", true); ("environment_path", true)]
     POST "/analyzer"
     Doc.call_analyzer.
Definition call_get_creds : t :=
  mk "call_get_creds" [] GET "/creds"
     Doc.call_get_creds.
Definition call_dockerfile_gen : t :=
  mk "call_dockerfile_gen"
     [("app_type", true); ("python_version", true); ("work_dir", true);
      ("entrypoint", true); ("folder_path", true)]
     GET "/dockerfile-gen"
     Doc.call_dockerfile_gen.
Definition call_jenkinsfile_gen : t :=
  mk "call_jenkinsfile_gen"
     [("folder_path", true); ("app_name", false); ("port", false);
      ("version", false)]
     GET "/jenkinsfile-gen"
     Doc.call_jenkinsfile_gen.
Definition call_infra : t :=
  mk "call_infra" [("work_dir", true); ("instance_size", true)] GET "/infra"
     Doc.call_infra.
Definition call_get_environments : t :=
  mk "call_get_environments" [("folder_path", true)] GET "/get-environments"
     Doc.call_get_environments.
Definition call_github_webhook_setup : t :=
  mk "call_github_webhook_setup" [("folder_path", true)]
     GET "/github-webhook-setup"
     Doc.call_github_webhook_setup.
Definition call_acube_cicd_plan : t :=
  mk "call_acube_cicd_plan" [("user_request", true); ("service_type", true)]
     GET "/acube/cicdplan"
     Doc.call_acube_cicd_plan.
Definition call_acube_dynamic_question : t :=
  mk "call_acube_dynamic_question" [("tool_name", true)]
     GET "/acube/dynamicquestion"
     Doc.call_acube_dynamic_question.
Definition call_acube_answer_validator : t :=
  mk "call_acube_answer_validator" [("tool_name", true); ("answer", true)]
     GET "/acube/answervalidator"
     Doc.call_acube_answer_validator.
Definition call_dashboard_file_data : t :=
  mk "call_dashboard_file_data" [] GET "/dashboard-file-data"
     Doc.call_dashboard_file_data.
Definition call_edit_file : t :=
  mk "call_edit_file"
     [("filename", true); ("original_code", true); ("prompt", true)]
     POST "/edit-file"
     Doc.call_edit_file.
Definition call_get_instance_ip : t :=
  mk "call_get_instance_ip" [("work_dir", true)] GET "/get-instance-ip"
     Doc.call_get_instance_ip.

#[global] Instance method_eq_dec : EqDecision http_method.
Proof. solve_decision. Defined.

#[global] Instance eq_dec : EqDecision t.
Proof. solve_decision. Defined.
End Tool.

(** The invokers that [functions.py] defines, in the order of the file. *)
Definition invokers : list Tool.t :=
  [ Tool.call_save_keys; Tool.call_get_keys; Tool.call_analyzer;
    Tool.call_get_creds; Tool.call_dockerfile_gen; Tool.call_jenkinsfile_gen;
    Tool.call_infra; Tool.call_get_environments;
    Tool.call_github_webhook_setup; Tool.call_acube_cicd_plan;
    Tool.call_acube_dynamic_question; Tool.call_acube_answer_validator;
    Tool.call_dashboard_file_data; Tool.call_edit_file;
    Tool.call_get_instance_ip ].

Module Agent.
Record t : Type := mk {
  model : string;
  name : string;
  tools : list Tool.t
}.
End Agent.

(** [root_agent] of [agent.py] (the instruction text and the generation
    settings are left out). *)
Definition root_agent : Agent.t :=
  Agent.mk "gemini-2.0-flash" "auto_anchor_agent"
    [ Tool.call_analyzer; Tool.call_dockerfile_gen; Tool.call_jenkinsfile_gen;
      Tool.call_get_creds; Tool.call_infra; Tool.call_get_environments;
      Tool.call_github_webhook_setup ].

(** An invoker is registered when it is one of the agent's tools. *)
Definition registered (f : Tool.t) : bool :=
  bool_decide (f ∈ Agent.tools root_agent).

(** Modelled from the spec: the agent framework, which is not among the
    sources, declares each function of the tool list as a callable tool
    with a name, a typed argument schema derived from its signature, and a
    description, its documentation. *)
Module FunctionTool.
Record t : Type := mk {
  name : string;
  schema : list (string * string * bool);
  description : string
}.
End FunctionTool.

(** The annotation of an argument in the sources. *)
Definition annotation (required : bool) : string :=
  if required then "str" else "Optional[str]".

Definition function_tool (f : Tool.t) : FunctionTool.t :=
  FunctionTool.mk (Tool.name f)
    (map (fun p => (fst p, annotation (snd p), snd p)) (Tool.arguments f))
    (Tool.doc f).

(** The tools an agent offers to the model. *)
Definition declared_tools (a : Agent.t) : list FunctionTool.t :=
  function_tool <$> Agent.tools a.

(** ** Status classes *)

Definition is_2xx (r : Response.t) : Prop :=
  200 <= Response.status_code r < 300.

Definition is_4xx_5xx (r : Response.t) : Prop :=
  400 <= Response.status_code r < 600.

(** ** The validation records of the specification *)

(** In the words of the specification: a validation record is a mapping
    with [loc], a sequence, and [msg]; it reads as the last element of
    [loc], a colon and [msg]. *)
Definition validation_record (rec : json_value) : option string :=
  match rec with
  | JDict d =>
      match dict_lookup d "loc", dict_lookup d "msg" with
      | Some (JList loc), Some msg =>
          field ← last loc; Some (py_str field +:+ ": " +:+ py_str msg)
      | _, _ => None
      end
  | _ => None
  end.

(** The records of a sequence, joined by "; "; [None] when an element of
    the sequence is not a validation record. *)
Definition joined_validation_records (recs : list json_value)
  : option string :=
  String.concat "; " <$> mapM validation_record recs.

(** ** Sample responses *)

(** Body texts are written with ' where the JSON text has a double quote. *)
Fixpoint body (s : string) : string :=
  match s with
  | EmptyString => EmptyString
  | String c s' => String (if Ascii.eqb c quote1 then quote2 else c) (body s')
  end.

Definition response_of (code : Z) (reason path text : string)
    (json : option json_value) : Response.t :=
  Response.mk code reason (BASE_URL +:+ path) text json.

Definition success_body : list (string * json_value) :=
  [("status", JStr "success"); ("app_type", JStr "streamlit");
   ("work_dir", JStr "/app")].

Definition ok_success : Response.t :=
  response_of 200 "OK" "/analyzer"
    (body "{'status': 'success', 'app_type': 'streamlit', 'work_dir': '/app'}")
    (Some (JDict success_body)).

Definition error_body : list (string * json_value) :=
  [("status", JStr "error"); ("error_message", JStr "folder_path is required")].

Definition ok_error : Response.t :=
  response_of 200 "OK" "/analyzer"
    (body "{'status': 'error', 'error_message': 'folder_path is required'}")
    (Some (JDict error_body)).


Definition ok_pending : Response.t :=
  response_of 200 "OK" "/infra" (body "{'status': 'pending'}")
    (Some (JDict [("status", JStr "pending")])).

Definition ok_null_status : Response.t :=
  response_of 200 "OK" "/infra" (body "{'status': null}")
    (Some (JDict [("status", JNull)])).


Definition bad_gateway : Response.t :=
  response_of 502 "Bad Gateway" "/creds" "<html>Bad Gateway</html>" None.

Definition field_required : list json_value :=
  [JDict [("loc", JList [JStr "body"; JStr "folder_path"]);
          ("msg", JStr "field required")]].

Definition unprocessable : Response.t :=
  response_of 422 "Unprocessable Entity" "/jenkinsfile-gen"
    (body "{'detail': [{'loc': ['body', 'folder_path'], 'msg': 'field required'}]}")
    (Some (JDict [("detail", JList field_required)])).

Definition unprocessable_no_records : Response.t :=
  response_of 422 "Unprocessable Entity" "/jenkinsfile-gen"
    (body "{'detail': []}")
    (Some (JDict [("detail", JList [])])).

Definition unprocessable_empty_loc : Response.t :=
  response_of 422 "Unprocessable Entity" "/jenkinsfile-gen"
    (body "{'detail': [{'loc': [], 'msg': 'field required'}]}")
    (Some (JDict [("detail",
       JList [JDict [("loc", JList []); ("msg", JStr "field required")]])])).

Definition unprocessable_null_loc : Response.t :=
  response_of 422 "Unprocessable Entity" "/jenkinsfile-gen"
    (body "{'detail': [{'loc': null, 'msg': 'field required'}]}")
    (Some (JDict [("detail",
       JList [JDict [("loc", JNull); ("msg", JStr "field required")]])])).

Definition unprocessable_stray_record : Response.t :=
  response_of 422 "Unprocessable Entity" "/jenkinsfile-gen"
    (body "{'detail': [{'loc': ['body', 'port'], 'msg': 'field required'}, 'retry']}")
    (Some (JDict [("detail",
       JList [JDict [("loc", JList [JStr "body"; JStr "port"]);
                     ("msg", JStr "field required")];
              JStr "retry"])])).

Definition not_found_body : list (string * json_value) :=
  [("error_message", JStr "Not found")].

Definition not_found : Response.t :=
  response_of 404 "Not Found" "/get-environments"
    (body "{'error_message': 'Not found'}")
    (Some (JDict not_found_body)).

Ltac concrete :=
  first [ reflexivity
        | discriminate
        | unfold is_2xx, is_4xx_5xx; cbn; lia ].

(** ** The other invokers *)

(** Lines 136-138 of [call_save_keys]. *)
Definition save_keys_request (public_key private_key : string) : Request.t :=
  let endpoint := BASE_URL +:+ "/api/save-keys" in
  let payload : gmap string string :=
    {[ "public_key" := public_key; "private_key" := private_key ]} in
  Request.mk POST endpoint None (Some payload).

(** Lines 154-155 of [call_get_keys]. *)
Definition get_keys_request : Request.t :=
  Request.mk GET (BASE_URL +:+ "/api/get-keys") None None.

(** Lines 201-202 of [call_get_creds]. *)
Definition get_creds_request : Request.t :=
  Request.mk GET (BASE_URL +:+ "/creds") None None.

(** Lines 224-232 of [call_dockerfile_gen]. *)
Definition dockerfile_gen_request
    (app_type python_version work_dir entrypoint folder_path : string)
  : Request.t :=
  let endpoint := BASE_URL +:+ "/dockerfile-gen" in
  let params : gmap string string :=
    {[ "app_type" := app_type; "python_version" := python_version;
       "work_dir" := work_dir; "entrypoint" := entrypoint;
       "folder_path" := folder_path ]} in
  Request.mk GET endpoint (Some params) None.

(** Lines 280-282 of [call_infra]. *)
Definition infra_request (work_dir instance_size : string) : Request.t :=
  let endpoint := BASE_URL +:+ "/infra" in
  let params : gmap string string :=
    {[ "work_dir" := work_dir; "instance_size" := instance_size ]} in
  Request.mk GET endpoint (Some params) None.

(** Lines 301-303 of [call_get_environments]. *)
Definition get_environments_request (folder_path : string) : Request.t :=
  let endpoint := BASE_URL +:+ "/get-environments" in
  let params : gmap string string := {[ "folder_path" := folder_path ]} in
  Request.mk GET endpoint (Some params) None.

(** Lines 323-325 of [call_github_webhook_setup]. *)
Definition github_webhook_setup_request (folder_path : string) : Request.t :=
  let endpoint := BASE_URL +:+ "/github-webhook-setup" in
  let params : gmap string string := {[ "folder_path" := folder_path ]} in
  Request.mk GET endpoint (Some params) None.

(** Lines 347-349 of [call_acube_cicd_plan]. *)
Definition acube_cicd_plan_request (user_request service_type : string)
  : Request.t :=
  let endpoint := BASE_URL +:+ "/acube/cicdplan" in
  let params : gmap string string :=
    {[ "user_request" := user_request; "service_type" := service_type ]} in
  Request.mk GET endpoint (Some params) None.

(** Lines 368-370 of [call_acube_dynamic_question]. *)
Definition acube_dynamic_question_request (tool_name : string) : Request.t :=
  let endpoint := BASE_URL +:+ "/acube/dynamicquestion" in
  let params : gmap string string := {[ "tool_name" := tool_name ]} in
  Request.mk GET endpoint (Some params) None.

(** Lines 390-392 of [call_acube_answer_validator]. *)
Definition acube_answer_validator_request (tool_name answer : string)
  : Request.t :=
  let endpoint := BASE_URL +:+ "/acube/answervalidator" in
  let params : gmap string string :=
    {[ "tool_name" := tool_name; "answer" := answer ]} in
  Request.mk GET endpoint (Some params) None.

(** Lines 410-411 of [call_dashboard_file_data]. *)
Definition dashboard_file_data_request : Request.t :=
  Request.mk GET (BASE_URL +:+ "/dashboard-file-data") None None.

(** Lines 432-434 of [call_edit_file]. *)
Definition edit_file_request (filename original_code prompt : string)
  : Request.t :=
  let endpoint := BASE_URL +:+ "/edit-file" in
  let payload : gmap string string :=
    {[ "filename" := filename; "original_code" := original_code;
       "prompt" := prompt ]} in
  Request.mk POST endpoint None (Some payload).

(** Lines 454-456 of [call_get_instance_ip]. *)
Definition get_instance_ip_request (work_dir : string) : Request.t :=
  let endpoint := BASE_URL +:+ "/get-instance-ip" in
  let params : gmap string string := {[ "work_dir" := work_dir ]} in
  Request.mk GET endpoint (Some params) None.

(** A call of an invoker with its arguments, as the orchestrator makes it. *)
Inductive invocation : Type :=
  | Call_save_keys (public_key private_key : string)
  | Call_get_keys
  | Call_analyzer (folder_path environment_path : option string)
  | Call_get_creds
  | Call_dockerfile_gen
      (app_type python_version work_dir entrypoint folder_path : string)
  | Call_jenkinsfile_gen (folder_path : string)
      (app_name port version : option string)
  | Call_infra (work_dir instance_size : string)
  | Call_get_environments (folder_path : string)
  | Call_github_webhook_setup (folder_path : string)
  | Call_acube_cicd_plan (user_request service_type : string)
  | Call_acube_dynamic_question (tool_name : string)
  | Call_acube_answer_validator (tool_name answer : string)
  | Call_dashboard_file_data
  | Call_edit_file (filename original_code prompt : string)
  | Call_get_instance_ip (work_dir : string).

(** The function a call names. *)
Definition tool_of (c : invocation) : Tool.t :=
  match c with
  | Call_save_keys _ _ => Tool.call_save_keys
  | Call_get_keys => Tool.call_get_keys
  | Call_analyzer _ _ => Tool.call_analyzer
  | Call_get_creds => Tool.call_get_creds
  | Call_dockerfile_gen _ _ _ _ _ => Tool.call_dockerfile_gen
  | Call_jenkinsfile_gen _ _ _ _ => Tool.call_jenkinsfile_gen
  | Call_infra _ _ => Tool.call_infra
  | Call_get_environments _ => Tool.call_get_environments
  | Call_github_webhook_setup _ => Tool.call_github_webhook_setup
  | Call_acube_cicd_plan _ _ => Tool.call_acube_cicd_plan
  | Call_acube_dynamic_question _ => Tool.call_acube_dynamic_question
  | Call_acube_answer_validator _ _ => Tool.call_acube_answer_validator
  | Call_dashboard_file_data => Tool.call_dashboard_file_data
  | Call_edit_file _ _ _ => Tool.call_edit_file
  | Call_get_instance_ip _ => Tool.call_get_instance_ip
  end.

(** The request a call issues. *)
Definition request_of (c : invocation) : Request.t :=
  match c with
  | Call_save_keys public_key private_key =>
      save_keys_request public_key private_key
  | Call_get_keys => get_keys_request
  | Call_analyzer folder_path environment_path =>
      analyzer_request folder_path environment_path
  | Call_get_creds => get_creds_request
  | Call_dockerfile_gen app_type python_version work_dir entrypoint folder_path =>
      dockerfile_gen_request app_type python_version work_dir entrypoint
        folder_path
  | Call_jenkinsfile_gen folder_path app_name port version =>
      jenkinsfile_gen_request folder_path app_name port version
  | Call_infra work_dir instance_size => infra_request work_dir instance_size
  | Call_get_environments folder_path => get_environments_request folder_path
  | Call_github_webhook_setup folder_path =>
      github_webhook_setup_request folder_path
  | Call_acube_cicd_plan user_request service_type =>
      acube_cicd_plan_request user_request service_type
  | Call_acube_dynamic_question tool_name =>
      acube_dynamic_question_request tool_name
  | Call_acube_answer_validator tool_name answer =>
      acube_answer_validator_request tool_name answer
  | Call_dashboard_file_data => dashboard_file_data_request
  | Call_edit_file filename original_code prompt =>
      edit_file_request filename original_code prompt
  | Call_get_instance_ip work_dir => get_instance_ip_request work_dir
  end.

(** Every invoker ends the same way: it sends its request and hands the
    response to [handle_api_response]. *)
Definition invoke (send : Request.t -> Response.t) (c : invocation) : outcome :=
  let response := send (request_of c) in
  handle_api_response response.

(** The names under which a request carries a value. *)
Definition carried (req : Request.t) (k : string) : option string :=
  match query_param req k with
  | Some v => Some v
  | None => body_field req k
  end.

(** ** Shapes of a decoded body *)

(** A decoded body that the success path returns: anything that is not a
    mapping; a mapping whose [status] is "success"; a mapping without
    [status] (or with a null one) and without [error_message]. *)
Definition accepted (data : json_value) : bool :=
  match data with
  | JDict d =>
      match dict_lookup d "status" with
      | Some (JStr s) => String.eqb s "success"
      | Some JNull | None => negb (dict_contains d "error_message")
      | Some _ => false
      end
  | _ => true
  end.



(** A field of an error body that is absent or null. *)
Definition unset (d : list (string * json_value)) (k : string) : Prop :=
  dict_lookup d k = None \/ dict_lookup d k = Some JNull.

(** ** More sample responses *)

Definition legacy_body : list (string * json_value) :=
  [("success", JBool true); ("message", JStr "Keys saved securely to file.")].

Definition ok_legacy : Response.t :=
  response_of 200 "OK" "/api/save-keys"
    (body "{'success': true, 'message': 'Keys saved securely to file.'}")
    (Some (JDict legacy_body)).

Definition bare_error_body : list (string * json_value) :=
  [("error_message", JStr "disk full")].

Definition ok_bare_error : Response.t :=
  response_of 200 "OK" "/edit-file" (body "{'error_message': 'disk full'}")
    (Some (JDict bare_error_body)).

Definition ok_list : Response.t :=
  response_of 200 "OK" "/get-environments" "[1, 2, 3]"
    (Some (JList [JInt 1; JInt 2; JInt 3])).

Definition not_modified_list : Response.t :=
  response_of 304 "Not Modified" "/get-environments" "[1, 2, 3]"
    (Some (JList [JInt 1; JInt 2; JInt 3])).

Definition conflict_body : list (string * json_value) :=
  [("error_message", JStr "already exists");
   ("detail", JStr "Conflict")].

Definition conflict : Response.t :=
  response_of 409 "Conflict" "/infra"
    (body "{'error_message': 'already exists', 'detail': 'Conflict'}")
    (Some (JDict conflict_body)).

Definition forbidden_body : list (string * json_value) :=
  [("detail", JStr "Not authenticated")].

Definition forbidden : Response.t :=
  response_of 403 "Forbidden" "/creds"
    (body "{'detail': 'Not authenticated'}")
    (Some (JDict forbidden_body)).

Definition teapot_body : list (string * json_value) :=
  [("code", JInt 7)].

Definition teapot : Response.t :=
  response_of 418 "I'm a Teapot" "/infra" (body "{'code': 7}")
    (Some (JDict teapot_body)).

Definition gateway_timeout : Response.t :=
  response_of 504 "Gateway Timeout" "/infra" EmptyString None.

Definition gone : Response.t :=
  response_of 410 "Gone" "/infra" EmptyString None.


Definition ok_pending_raised : APIClientError.t :=
  APIClientError.mk
    (JStr "API response has an unexpected 'status' field value: 'pending'")
    (Some 200) (Document (JDict [("status", JStr "pending")])).

(** The arguments of a call, each under the name of its parameter; [None]
    is an argument that is not given. *)
Definition passed (c : invocation) : list (string * option string) :=
  match c with
  | Call_save_keys public_key private_key =>
      [("public_key", Some public_key); ("private_key", Some private_key)]
  | Call_analyzer folder_path environment_path =>
      [("folder_path", folder_path); ("environment_path", environment_path)]
  | Call_dockerfile_gen app_type python_version work_dir entrypoint folder_path =>
      [("app_type", Some app_type); ("python_version", Some python_version);
       ("work_dir", Some work_dir); ("entrypoint", Some entrypoint);
       ("folder_path", Some folder_path)]
  | Call_jenkinsfile_gen folder_path app_name port version =>
      [("folder_path", Some folder_path); ("app_name", app_name);
       ("port", port); ("version", version)]
  | Call_infra work_dir instance_size =>
      [("work_dir", Some work_dir); ("instance_size", Some instance_size)]
  | Call_get_environments folder_path => [("folder_path", Some folder_path)]
  | Call_github_webhook_setup folder_path =>
      [("folder_path", Some folder_path)]
  | Call_acube_cicd_plan user_request service_type =>
      [("user_request", Some user_request); ("service_type", Some service_type)]
  | Call_acube_dynamic_question tool_name => [("tool_name", Some tool_name)]
  | Call_acube_answer_validator tool_name answer =>
      [("tool_name", Some tool_name); ("answer", Some answer)]
  | Call_edit_file filename original_code prompt =>
      [("filename", Some filename); ("original_code", Some original_code);
       ("prompt", Some prompt)]
  | Call_get_instance_ip work_dir => [("work_dir", Some work_dir)]
  | Call_get_keys | Call_get_creds | Call_dashboard_file_data => []
  end.

(** The optional arguments of [call_jenkinsfile_gen], the ones it tests
    for truth before it sends them. *)
Definition tested_for_truth (c : invocation) (k : string) : bool :=
  match c with
  | Call_jenkinsfile_gen _ _ _ _ =>
      String.eqb k "app_name" || String.eqb k "port" || String.eqb k "version"
  | _ => false
  end.

(** Tactics for the lookups in the requests of the invokers. *)
Ltac request_fields :=
  unfold carried, query_param, body_field, request_of,
    save_keys_request, get_keys_request, analyzer_request, get_creds_request,
    dockerfile_gen_request, jenkinsfile_gen_request, infra_request,
    get_environments_request, github_webhook_setup_request,
    acube_cicd_plan_request, acube_dynamic_question_request,
    acube_answer_validator_request, dashboard_file_data_request,
    edit_file_request, get_instance_ip_request,
    set_if_truthy, set_if_not_None;
  cbn [Request.params Request.json mbind option_bind].

Ltac lookups :=
  repeat first
    [ rewrite lookup_insert_eq
    | rewrite lookup_singleton_eq
    | rewrite lookup_insert_ne by done
    | rewrite lookup_singleton_ne by done
    | rewrite lookup_empty ];
  done.

Ltac members H :=
  repeat (apply elem_of_cons in H as [H | H]; [injection H as ? ?; subst|]);
  try (by apply elem_of_nil in H).

(** * Properties *)
Lemma append_nonempty (s t : string) (c : ascii) :
  s +:+ String c t <> EmptyString.
Proof. destruct s; discriminate. Qed.

Lemma raise_for_status_2xx (r : Response.t) :
  is_2xx r -> raise_for_status r = None.
Proof.
  unfold is_2xx, raise_for_status. intros H.
  replace (400 <=? _) with false by lia.
  replace (500 <=? _) with false by lia. reflexivity.
Qed.

Lemma raise_for_status_error (r : Response.t) :
  is_4xx_5xx r ->
  exists msg, msg <> EmptyString /\
    raise_for_status r = Some (HTTPError.mk msg r).
Proof.
  unfold is_4xx_5xx, raise_for_status. intros H.
  set (client := _ +:+ " Client Error: " +:+ _).
  set (server := _ +:+ " Server Error: " +:+ _).
  assert (Hc : client <> EmptyString) by apply append_nonempty.
  assert (Hs : server <> EmptyString) by apply append_nonempty.
  destruct (Z.ltb_spec (Response.status_code r) 500).
  - replace (400 <=? _) with true by lia. cbn [andb].
    exists client. split; [done|]. by destruct client.
  - replace (400 <=? _) with true by lia. cbn [andb].
    replace (500 <=? _) with true by lia.
    replace (_ <? 600) with true by lia. cbn [andb].
    exists server. split; [done|]. by destruct server.
Qed.

(** What a 2xx response with a decoded dict leads to, by the value found
    under [status]. *)
Lemma handle_2xx_dict (r : Response.t) (d : list (string * json_value)) :
  is_2xx r -> Response.json r = Some (JDict d) ->
  handle_api_response r =
    let api_status := dict_get d "status" JNull in
    let code := Some (Response.status_code r) in
    if py_eq_str api_status "error" then
      Raises (APIClientError.mk
        (dict_get d "error_message"
           (JStr "Unknown API error: 'status' is 'error' but 'error_message' is missing."))
        code (Document (JDict d)))
    else if py_eq_str api_status "success" then Returns (JDict d)
    else if is_None api_status then
      match dict_lookup d "error_message" with
      | Some m => Raises (APIClientError.mk m code (Document (JDict d)))
      | None => Returns (JDict d)
      end
    else
      Raises (APIClientError.mk
        (JStr ("API response has an unexpected 'status' field value: '"
               +:+ py_str api_status +:+ "'"))
        code (Document (JDict d))).
Proof.
  intros H2 Hj. unfold handle_api_response.
  by rewrite (raise_for_status_2xx r H2), Hj.
Qed.

Lemma py_eq_str_true (v : json_value) (s : string) :
  py_eq_str v s = true <-> v = JStr s.
Proof.
  destruct v; cbn; try (split; [discriminate | congruence]).
  rewrite String.eqb_eq. split; congruence.
Qed.

Lemma py_eq_str_false (v : json_value) (s : string) :
  v <> JStr s -> py_eq_str v s = false.
Proof.
  intros H. destruct (py_eq_str v s) eqn:E; [|done].
  by apply py_eq_str_true in E.
Qed.

(** ** The success path *)

(** C1: a 2xx response whose body decodes to a mapping with [status] equal
    to "success" is returned as it is: the result is the whole decoded
    mapping, nothing added, removed or changed. *)
Theorem C1_success_returns_body_unchanged
    (r : Response.t) (d : list (string * json_value)) :
  is_2xx r ->
  Response.json r = Some (JDict d) ->
  dict_lookup d "status" = Some (JStr "success") ->
  handle_api_response r = Returns (JDict d).
Proof.
  intros H2 Hj Hs. rewrite (handle_2xx_dict r d H2 Hj).
  unfold dict_get. by rewrite Hs.
Qed.

(** C2: a 2xx response whose body decodes to a mapping with [status] equal
    to "error" raises the client error whose message is the field
    [error_message] of the body when it has one and the fixed text about
    the missing [error_message] otherwise, whose status code is the HTTP
    code and whose payload is the body. *)
Theorem C2_error_status_raises
    (r : Response.t) (d : list (string * json_value)) :
  is_2xx r ->
  Response.json r = Some (JDict d) ->
  dict_lookup d "status" = Some (JStr "error") ->
  handle_api_response r =
    Raises (APIClientError.mk
      (match dict_lookup d "error_message" with
       | Some m => m
       | None =>
           JStr "Unknown API error: 'status' is 'error' but 'error_message' is missing."
       end)
      (Some (Response.status_code r))
      (Document (JDict d))).
Proof.
  intros H2 Hj Hs. rewrite (handle_2xx_dict r d H2 Hj).
  unfold dict_get. by rewrite Hs.
Qed.


(** ** An unexpected [status] *)

(** X18: a 2xx response whose body decodes to a mapping in which [status]
    holds a value that is not null and is neither "success" nor "error"
    raises the client error whose message quotes that value, whose status
    code is the HTTP code and whose payload is the body. *)
Theorem unexpected_status_raises
    (r : Response.t) (d : list (string * json_value)) (v : json_value) :
  is_2xx r ->
  Response.json r = Some (JDict d) ->
  dict_lookup d "status" = Some v ->
  v <> JNull -> v <> JStr "success" -> v <> JStr "error" ->
  handle_api_response r =
    Raises (APIClientError.mk
      (JStr ("API response has an unexpected 'status' field value: '"
             +:+ py_str v +:+ "'"))
      (Some (Response.status_code r))
      (Document (JDict d))).
Proof.
  intros H2 Hj Hs Hn Hsucc Herr. rewrite (handle_2xx_dict r d H2 Hj).
  unfold dict_get. rewrite Hs. cbn zeta.
  rewrite (py_eq_str_false _ _ Herr), (py_eq_str_false _ _ Hsucc).
  by destruct v.
Qed.


Lemma C1_witness :
  is_2xx ok_success /\
  handle_api_response ok_success = Returns (JDict success_body).
Proof.
  split; [concrete|].
  apply (C1_success_returns_body_unchanged ok_success success_body); concrete.
Defined.

Lemma C2_witness :
  is_2xx ok_error /\
  handle_api_response ok_error =
    Raises (APIClientError.mk (JStr "folder_path is required") (Some 200)
              (Document (JDict error_body))).
Proof.
  split; [concrete|].
  apply (C2_error_status_raises ok_error error_body); concrete.
Defined.


Lemma unexpected_status_raises_witness :
  is_2xx ok_pending /\
  handle_api_response ok_pending =
    Raises (APIClientError.mk
      (JStr "API response has an unexpected 'status' field value: 'pending'")
      (Some 200) (Document (JDict [("status", JStr "pending")]))).
Proof.
  split; [concrete|].
  apply (unexpected_status_raises ok_pending
           [("status", JStr "pending")] (JStr "pending")); concrete.
Defined.

(** C4 fails on the code: in the 200 response with the body
    {"status": null} the field [status] is present and holds a value that
    is neither "success" nor "error", and the response is returned as a
    success instead of raising the client error: the null value takes the
    branch of a missing field. *)
Theorem C4_null_status_is_returned :
  is_2xx ok_null_status /\
  (exists d v,
     Response.json ok_null_status = Some (JDict d) /\
     dict_lookup d "status" = Some v /\
     v <> JStr "success" /\ v <> JStr "error") /\
  handle_api_response ok_null_status = Returns (JDict [("status", JNull)]) /\
  ~ (exists e, handle_api_response ok_null_status = Raises e).
Proof.
  split; [concrete|]. split.
  - exists [("status", JNull)], JNull. repeat split; concrete.
  - split; [concrete|]. intros [e He]. discriminate He.
Qed.

(** ** Error responses *)

(** An error response either raises the client error, with the HTTP code
    and the response object, or lets an exception of the message
    extraction escape. *)
Lemma handle_error (r : Response.t) :
  is_4xx_5xx r ->
  exists http_err,
    HTTPError.response http_err = r /\
    HTTPError.args http_err <> EmptyString /\
    handle_api_response r =
      match error_message_of r http_err with
      | Ok message =>
          Raises (APIClientError.mk message (Some (Response.status_code r))
                    (ResponseObject r))
      | Exn e => Escapes e
      end.
Proof.
  intros H. destruct (raise_for_status_error r H) as (msg & Hmsg & E).
  exists (HTTPError.mk msg r). unfold handle_api_response. by rewrite E.
Qed.




(** *** Validation records *)

Lemma format_validation_error_record (rec : json_value) (s : string) :
  validation_record rec = Some s -> format_validation_error rec = Ok s.
Proof.
  destruct rec as [| | | | |?|d]; try discriminate. cbn.
  unfold dict_get.
  destruct (dict_lookup d "loc") as [[| | | | |loc|?]|]; try discriminate.
  destruct (dict_lookup d "msg") as [msg|]; [|discriminate].
  cbn. destruct (last loc) as [field|]; [|discriminate].
  cbn. by intros [= <-].
Qed.

Lemma py_for_validation_records (recs : list json_value) (parts : list string) :
  mapM validation_record recs = Some parts ->
  py_for format_validation_error recs = Ok parts.
Proof.
  unfold py_for. revert parts.
  induction recs as [|rec recs IH]; intros parts; cbn.
  - by intros [= <-].
  - destruct (validation_record rec) as [s|] eqn:Es; [|discriminate].
    rewrite (format_validation_error_record rec s Es). cbn.
    destruct (mapM validation_record recs) as [ss|]; [|discriminate].
    rewrite (IH ss eq_refl). cbn. by intros [= <-].
Qed.

Lemma is_validation_errors_records (recs : list json_value) (parts : list string) :
  recs <> [] ->
  mapM validation_record recs = Some parts ->
  is_validation_errors (JList recs) = true.
Proof.
  destruct recs as [|rec recs]; [done|]. intros _. cbn.
  destruct rec as [| | | | |?|d]; try discriminate. cbn.
  unfold dict_contains.
  destruct (dict_lookup d "loc") as [[| | | | |loc|?]|]; try discriminate.
  destruct (dict_lookup d "msg"); [done|discriminate].
Qed.

(** C6, as the code has it: a 4xx/5xx response whose body decodes to a
    mapping without [error_message] and with [detail] a sequence of at
    least one validation record, each a mapping with [msg] and with [loc] a
    sequence that has a last element, raises the client error whose message
    is the records joined by "; ", each as the last element of its [loc], a
    colon and its [msg]. *)
Theorem C6_validation_records_joined
    (r : Response.t) (d : list (string * json_value))
    (recs : list json_value) (s : string) :
  is_4xx_5xx r ->
  Response.json r = Some (JDict d) ->
  dict_lookup d "error_message" = None ->
  dict_lookup d "detail" = Some (JList recs) ->
  recs <> [] ->
  joined_validation_records recs = Some s ->
  exists e,
    handle_api_response r = Raises e /\
    APIClientError.message e = JStr s /\
    APIClientError.status_code e = Some (Response.status_code r).
Proof.
  intros H Hj Hm Hd Hne Hs.
  destruct (handle_error r H) as (http_err & _ & _ & E).
  unfold joined_validation_records in Hs.
  destruct (mapM validation_record recs) as [parts|] eqn:Ep; [|discriminate].
  injection Hs as <-.
  unfold error_message_of, dict_get in E. rewrite Hj, Hm, Hd in E.
  cbn [is_None] in E.
  rewrite (is_validation_errors_records recs parts Hne Ep) in E.
  rewrite (py_for_validation_records recs parts Ep) in E.
  cbn in E. eexists. split; [exact E|]. split; reflexivity.
Qed.

Lemma C6_witness :
  is_4xx_5xx unprocessable /\
  joined_validation_records field_required = Some "folder_path: field required" /\
  exists e,
    handle_api_response unprocessable = Raises e /\
    APIClientError.message e = JStr "folder_path: field required" /\
    APIClientError.status_code e = Some 422.
Proof.
  split; [concrete|]. split; [concrete|].
  apply (C6_validation_records_joined unprocessable
           [("detail", JList field_required)] field_required); concrete.
Defined.

(** C6 as stated fails for a [detail] that is the empty sequence: every
    record of it is a validation record and their join is the empty string,
    but the message of the client error is the empty sequence itself. *)
Lemma C6_no_records_counterexample :
  is_4xx_5xx unprocessable_no_records /\
  (exists d recs,
     Response.json unprocessable_no_records = Some (JDict d) /\
     dict_lookup d "error_message" = None /\
     dict_lookup d "detail" = Some (JList recs) /\
     joined_validation_records recs = Some EmptyString) /\
  exists e,
    handle_api_response unprocessable_no_records = Raises e /\
    APIClientError.message e = JList [] /\
    APIClientError.message e <> JStr EmptyString.
Proof.
  split; [concrete|]. split.
  - exists [("detail", JList [])], []. repeat split; concrete.
  - eexists. split; [reflexivity|]. split; [reflexivity|]. discriminate.
Qed.

(** *** The payload of the client error *)

Lemma error_response_data (r : Response.t) (e : APIClientError.t) :
  is_4xx_5xx r ->
  handle_api_response r = Raises e ->
  APIClientError.response_data e = ResponseObject r.
Proof.
  intros H He. destruct (handle_error r H) as (http_err & _ & _ & E).
  rewrite E in He. destruct (error_message_of r http_err); [|discriminate].
  by injection He as <-.
Qed.

(** C7 fails on the code: the client error of a 4xx/5xx response carries
    the response object, not the decoded body, and for a body that does not
    decode it carries the response object too, not an empty value. *)
Theorem C7_payload_is_response_object :
  handle_api_response not_found =
    Raises (APIClientError.mk (JStr "Not found") (Some 404)
              (ResponseObject not_found))
  /\ ResponseObject not_found <> Document (JDict not_found_body)
  /\ handle_api_response bad_gateway =
       Raises (APIClientError.mk (JStr "HTTP error: <html>Bad Gateway</html>")
                 (Some 502) (ResponseObject bad_gateway))
  /\ ResponseObject bad_gateway <> NoPayload
  /\ ResponseObject bad_gateway <> Document (JDict []).
Proof. repeat split; concrete. Qed.

(** *** Exceptions that escape *)

(** Outside the list of validation errors the message extraction does not
    fail: the error response raises the client error. *)
Lemma error_response_raises (r : Response.t) :
  is_4xx_5xx r ->
  (forall d, Response.json r = Some (JDict d) ->
             dict_lookup d "error_message" = None \/
             dict_lookup d "error_message" = Some JNull ->
             is_validation_errors (dict_get d "detail" JNull) = false) ->
  exists e, handle_api_response r = Raises e.
Proof.
  intros H Hv. destruct (handle_error r H) as (http_err & _ & _ & E).
  rewrite E. unfold error_message_of.
  destruct (Response.json r) as [[| | | | |?|d]|] eqn:Ej; try by eexists.
  specialize (Hv d eq_refl). unfold dict_get in *.
  destruct (dict_lookup d "error_message") as [[]|]; cbn;
    try (by eexists); rewrite Hv by auto;
    cbn; destruct (is_None _); by eexists.
Qed.

(** C8 fails on the code: a 422 response whose [detail] is a list of
    validation errors lets an exception escape when the [loc] of a record
    is empty ([IndexError]), when it is null ([TypeError]), and when a
    record after the first is not a mapping ([AttributeError]). *)
Theorem C8_malformed_records_escape :
  handle_api_response unprocessable_empty_loc = Escapes IndexError
  /\ handle_api_response unprocessable_null_loc = Escapes TypeError
  /\ handle_api_response unprocessable_stray_record = Escapes AttributeError.
Proof. repeat split; concrete. Qed.

(** ** The requests of the invokers *)

Lemma set_if_truthy_falsy (k : string) (arg : option string)
    (params : gmap string string) :
  arg = None \/ arg = Some EmptyString -> set_if_truthy k arg params = params.
Proof. by intros [-> | ->]. Qed.

Lemma set_if_truthy_other (k k' : string) (arg : option string)
    (params : gmap string string) :
  k <> k' -> set_if_truthy k arg params !! k' = params !! k'.
Proof.
  intros Hk. destruct arg as [[|c s]|]; cbn; [done| |done].
  by rewrite lookup_insert_ne.
Qed.

Lemma set_if_truthy_given (k : string) (c : ascii) (s : string)
    (params : gmap string string) :
  set_if_truthy k (Some (String c s)) params !! k = Some (String c s).
Proof. cbn. by rewrite lookup_insert_eq. Qed.

Lemma set_if_not_None_other (k k' : string) (arg : option string)
    (payload : gmap string string) :
  k <> k' -> set_if_not_None k arg payload !! k' = payload !! k'.
Proof.
  intros Hk. destruct arg; cbn; [|done]. by rewrite lookup_insert_ne.
Qed.

(** An argument that is given, and not empty, is sent with its value. *)
Lemma jenkinsfile_gen_sends_given (folder_path : string)
    (app_name port version : option string) (k : string) (c : ascii) (s : string) :
  (k, Some (String c s)) ∈
    [("app_name", app_name); ("port", port); ("version", version)] ->
  query_param (jenkinsfile_gen_request folder_path app_name port version) k
    = Some (String c s).
Proof.
  intros Hin. cbn.
  repeat (apply elem_of_cons in Hin as [[= -> <-] | Hin]);
    [| | | by apply elem_of_nil in Hin].
  - rewrite !set_if_truthy_other by done. apply set_if_truthy_given.
  - rewrite set_if_truthy_other by done. apply set_if_truthy_given.
  - apply set_if_truthy_given.
Qed.

(** C9: [call_jenkinsfile_gen] leaves an optional argument ([app_name],
    [port], [version]) that is absent or empty out of the query parameters
    of its request, and [call_analyzer] leaves an argument that is [None]
    out of the JSON body of its request: the request carries no entry at
    all under that name. *)
Theorem C9_optional_arguments_omitted
    (folder_path : string) (app_name port version : option string)
    (a_folder_path a_environment_path : option string) :
  (forall k arg,
     (k, arg) ∈ [("app_name", app_name); ("port", port); ("version", version)] ->
     arg = None \/ arg = Some EmptyString ->
     query_param (jenkinsfile_gen_request folder_path app_name port version) k
       = None)
  /\
  (forall k arg,
     (k, arg) ∈ [("folder_path", a_folder_path);
                 ("environment_path", a_environment_path)] ->
     arg = None ->
     body_field (analyzer_request a_folder_path a_environment_path) k = None).
Proof.
  split; intros k arg Hin Harg; cbn.
  - repeat (apply elem_of_cons in Hin as [[= -> ->] | Hin]);
      [| | | by apply elem_of_nil in Hin].
    + rewrite !set_if_truthy_other by done.
      rewrite (set_if_truthy_falsy _ app_name) by done.
      by rewrite lookup_singleton_ne.
    + rewrite set_if_truthy_other by done.
      rewrite (set_if_truthy_falsy _ port) by done.
      rewrite set_if_truthy_other by done.
      by rewrite lookup_singleton_ne.
    + rewrite (set_if_truthy_falsy _ version) by done.
      rewrite !set_if_truthy_other by done.
      by rewrite lookup_singleton_ne.
  - repeat (apply elem_of_cons in Hin as [[= -> ->] | Hin]);
      [| | by apply elem_of_nil in Hin]; subst.
    + rewrite set_if_not_None_other by done. cbn. apply lookup_empty.
    + cbn. rewrite set_if_not_None_other by done. apply lookup_empty.
Qed.

Lemma C9_witness :
  query_param (jenkinsfile_gen_request "/srv/app" None (Some EmptyString)
                 (Some "v1")) "app_name" = None
  /\ query_param (jenkinsfile_gen_request "/srv/app" None (Some EmptyString)
                    (Some "v1")) "port" = None
  /\ body_field (analyzer_request (Some "/srv/app") None) "environment_path"
       = None.
Proof.
  pose proof (C9_optional_arguments_omitted "/srv/app" None
                (Some EmptyString) (Some "v1") (Some "/srv/app") None)
    as [Hq Hb].
  split; [|split].
  - apply (Hq "app_name" None); [|by left].
    apply elem_of_cons. by left.
  - apply (Hq "port" (Some EmptyString)); [|by right].
    apply elem_of_cons. right. apply elem_of_cons. by left.
  - apply (Hb "environment_path" None); [|done].
    apply elem_of_cons. right. apply elem_of_cons. by left.
Defined.

(** ** The tools of the agent *)

(** C10, as the code has it: of the fifteen invokers, the seven for
    analyzer, get-creds, dockerfile-gen, jenkinsfile-gen, infra,
    get-environments and github-webhook-setup are the tools of the
    orchestrator agent, each under its name, with the schema of its
    arguments and with its documentation as description; the other eight
    are not registered. *)
Theorem C10_registered_tools :
  length invokers = 15%nat
  /\ NoDup (Tool.name <$> invokers)
  /\ (forall f, f ∈ Agent.tools root_agent -> f ∈ invokers)
  /\ List.filter registered invokers =
       [ Tool.call_analyzer; Tool.call_get_creds; Tool.call_dockerfile_gen;
         Tool.call_jenkinsfile_gen; Tool.call_infra;
         Tool.call_get_environments; Tool.call_github_webhook_setup ]
  /\ Tool.path <$> List.filter (fun f => negb (registered f)) invokers =
       [ "/api/save-keys"; "/api/get-keys"; "/acube/cicdplan";
         "/acube/dynamicquestion"; "/acube/answervalidator";
         "/dashboard-file-data"; "/edit-file"; "/get-instance-ip" ]
  /\ declared_tools root_agent =
       [ FunctionTool.mk "call_analyzer"
           [("folder_path", "str", true); ("environment_path", "str", true)]
           Doc.call_analyzer;
         FunctionTool.mk "call_dockerfile_gen"
           [("app_type", "str", true); ("python_version", "str", true);
            ("work_dir", "str", true); ("entrypoint", "str", true);
            ("folder_path", "str", true)]
           Doc.call_dockerfile_gen;
         FunctionTool.mk "call_jenkinsfile_gen"
           [("folder_path", "str", true); ("app_name", "Optional[str]", false);
            ("port", "Optional[str]", false);
            ("version", "Optional[str]", false)]
           Doc.call_jenkinsfile_gen;
         FunctionTool.mk "call_get_creds" [] Doc.call_get_creds;
         FunctionTool.mk "call_infra"
           [("work_dir", "str", true); ("instance_size", "str", true)]
           Doc.call_infra;
         FunctionTool.mk "call_get_environments"
           [("folder_path", "str", true)] Doc.call_get_environments;
         FunctionTool.mk "call_github_webhook_setup"
           [("folder_path", "str", true)] Doc.call_github_webhook_setup ]
  /\ Forall (fun t => FunctionTool.description t <> EmptyString)
       (declared_tools root_agent)
  /\ NoDup (FunctionTool.description <$> declared_tools root_agent).
Proof.
  split; [reflexivity|]. split; [compute_done|].
  split; [apply Forall_forall; compute_done|].
  split; [by vm_compute|]. split; [by vm_compute|].
  split; [reflexivity|]. split; [|compute_done].
  repeat constructor; by vm_compute.
Qed.

(** C10 as stated fails: save-keys is an invoker of the table and is not
    among the tools of the agent. *)
Lemma C10_save_keys_counterexample :
  Tool.call_save_keys ∈ invokers /\
  Tool.path Tool.call_save_keys = "/api/save-keys" /\
  Tool.call_save_keys ∉ Agent.tools root_agent.
Proof.
  split; [compute_done|]. split; [reflexivity|]. compute_done.
Qed.


(** * Further properties of the code *)

(** ** The success path, for every status code outside 400-599 *)

Lemma raise_for_status_not_error (r : Response.t) :
  ~ is_4xx_5xx r -> raise_for_status r = None.
Proof.
  unfold is_4xx_5xx, raise_for_status. intros H.
  destruct (Z.leb_spec 400 (Response.status_code r));
    destruct (Z.ltb_spec (Response.status_code r) 500);
    destruct (Z.leb_spec 500 (Response.status_code r));
    destruct (Z.ltb_spec (Response.status_code r) 600);
    cbn; try reflexivity; lia.
Qed.

Lemma is_4xx_5xx_dec (r : Response.t) : is_4xx_5xx r \/ ~ is_4xx_5xx r.
Proof. unfold is_4xx_5xx. lia. Qed.

(** The success path, spelled out. *)
Lemma handle_success_path (r : Response.t) :
  ~ is_4xx_5xx r ->
  handle_api_response r =
    let code := Some (Response.status_code r) in
    match Response.json r with
    | None =>
        Raises (APIClientError.mk
          (JStr ("Failed to decode JSON response from successful HTTP call: "
                 +:+ Response.text r)) code NoPayload)
    | Some (JDict d) =>
        match dict_lookup d "status" with
        | Some (JStr s) =>
            if String.eqb s "error" then
              Raises (APIClientError.mk
                (dict_get d "error_message"
                   (JStr "Unknown API error: 'status' is 'error' but 'error_message' is missing."))
                code (Document (JDict d)))
            else if String.eqb s "success" then Returns (JDict d)
            else
              Raises (APIClientError.mk
                (JStr ("API response has an unexpected 'status' field value: '"
                       +:+ s +:+ "'"))
                code (Document (JDict d)))
        | Some JNull | None =>
            match dict_lookup d "error_message" with
            | Some m => Raises (APIClientError.mk m code (Document (JDict d)))
            | None => Returns (JDict d)
            end
        | Some v =>
            Raises (APIClientError.mk
              (JStr ("API response has an unexpected 'status' field value: '"
                     +:+ py_str v +:+ "'"))
              code (Document (JDict d)))
        end
    | Some data => Returns data
    end.
Proof.
  intros H. unfold handle_api_response.
  rewrite (raise_for_status_not_error r H).
  destruct (Response.json r) as [[| | | | | |d]|]; try reflexivity.
  unfold dict_get.
  destruct (dict_lookup d "status") as [[| | | |s| |]|]; reflexivity.
Qed.

(** X1: a mapping that has neither [status] (or a null one) nor
    [error_message] is an implicit success: it is returned as it is. *)
Theorem implicit_success_without_status
    (r : Response.t) (d : list (string * json_value)) :
  ~ is_4xx_5xx r ->
  Response.json r = Some (JDict d) ->
  unset d "status" ->
  dict_lookup d "error_message" = None ->
  handle_api_response r = Returns (JDict d).
Proof.
  intros H Hj Hs Hm. rewrite (handle_success_path r H), Hj. cbn zeta.
  destruct Hs as [-> | ->]; by rewrite Hm.
Qed.

Lemma implicit_success_without_status_witness :
  ~ is_4xx_5xx ok_legacy /\
  handle_api_response ok_legacy = Returns (JDict legacy_body).
Proof.
  assert (H : ~ is_4xx_5xx ok_legacy) by (unfold is_4xx_5xx; cbn; lia).
  split; [exact H|].
  apply (implicit_success_without_status ok_legacy legacy_body H);
    [reflexivity | by left | reflexivity].
Defined.

(** X2: a mapping without [status] (or with a null one) that has an
    [error_message] entry, whatever its value, raises the client error with
    that value as message, the HTTP code and the body. *)
Theorem error_message_without_status_raises
    (r : Response.t) (d : list (string * json_value)) (m : json_value) :
  ~ is_4xx_5xx r ->
  Response.json r = Some (JDict d) ->
  unset d "status" ->
  dict_lookup d "error_message" = Some m ->
  handle_api_response r =
    Raises (APIClientError.mk m (Some (Response.status_code r))
              (Document (JDict d))).
Proof.
  intros H Hj Hs Hm. rewrite (handle_success_path r H), Hj. cbn zeta.
  destruct Hs as [-> | ->]; by rewrite Hm.
Qed.

Lemma error_message_without_status_raises_witness :
  ~ is_4xx_5xx ok_bare_error /\
  handle_api_response ok_bare_error =
    Raises (APIClientError.mk (JStr "disk full") (Some 200)
              (Document (JDict bare_error_body))).
Proof.
  assert (H : ~ is_4xx_5xx ok_bare_error) by (unfold is_4xx_5xx; cbn; lia).
  split; [exact H|].
  apply (error_message_without_status_raises ok_bare_error bare_error_body
           (JStr "disk full") H); [reflexivity | by left | reflexivity].
Defined.

(** X3: a decoded body that is not a mapping (a list, a string, a number,
    a boolean, null) is returned as it is. *)
Theorem non_mapping_body_returned (r : Response.t) (data : json_value) :
  ~ is_4xx_5xx r ->
  Response.json r = Some data ->
  is_dict data = false ->
  handle_api_response r = Returns data.
Proof.
  intros H Hj Hd. rewrite (handle_success_path r H), Hj.
  by destruct data.
Qed.

Lemma non_mapping_body_returned_witness :
  ~ is_4xx_5xx ok_list /\
  handle_api_response ok_list = Returns (JList [JInt 1; JInt 2; JInt 3]).
Proof.
  assert (H : ~ is_4xx_5xx ok_list) by (unfold is_4xx_5xx; cbn; lia).
  split; [exact H|].
  apply (non_mapping_body_returned ok_list _ H); reflexivity.
Defined.

(** X4: what is returned is the decoded body and nothing else. A value is
    returned exactly when the status code is outside 400-599, the body
    decodes to that value, and the value is not a mapping, or a mapping
    with [status] "success", or a mapping without [status] and without
    [error_message]. *)
Theorem returns_iff_accepted_body (r : Response.t) (data : json_value) :
  handle_api_response r = Returns data <->
  ~ is_4xx_5xx r /\ Response.json r = Some data /\ accepted data = true.
Proof.
  split.
  - intros Hr. destruct (is_4xx_5xx_dec r) as [He | Hn].
    + destruct (handle_error r He) as (http_err & _ & _ & E).
      rewrite E in Hr. destruct (error_message_of r http_err); discriminate.
    + split; [exact Hn|]. rewrite (handle_success_path r Hn) in Hr.
      destruct (Response.json r) as [[| | | | | |d]|];
        try (injection Hr as <-; by split); try discriminate.
      cbn zeta in Hr.
      destruct (dict_lookup d "status") as [[| | | |s| |]|] eqn:Es;
        try discriminate.
      * destruct (dict_lookup d "error_message") eqn:Em; [discriminate|].
        injection Hr as <-. split; [done|].
        unfold accepted, dict_contains. by rewrite Es, Em.
      * destruct (String.eqb s "error"); [discriminate|].
        destruct (String.eqb s "success") eqn:E; [|discriminate].
        injection Hr as <-. split; [done|].
        unfold accepted. by rewrite Es.
      * destruct (dict_lookup d "error_message") eqn:Em; [discriminate|].
        injection Hr as <-. split; [done|].
        unfold accepted, dict_contains. by rewrite Es, Em.
  - intros (Hn & Hj & Ha). rewrite (handle_success_path r Hn), Hj.
    destruct data as [| | | | | |d]; try reflexivity.
    cbn zeta. unfold accepted, dict_contains in Ha.
    destruct (dict_lookup d "status") as [[| | | |s| |]|];
      try discriminate;
      try (by destruct (dict_lookup d "error_message")).
    apply String.eqb_eq in Ha as ->. reflexivity.
Qed.



(** X6: outside 400-599 the payload of a raised client error is the decoded
    body, and nothing when the body does not decode. *)
Theorem success_path_error_payload (r : Response.t) (e : APIClientError.t) :
  ~ is_4xx_5xx r ->
  handle_api_response r = Raises e ->
  APIClientError.response_data e =
    match Response.json r with
    | Some data => Document data
    | None => NoPayload
    end.
Proof.
  intros Hn Hr. rewrite (handle_success_path r Hn) in Hr. cbn zeta in Hr.
  destruct (Response.json r) as [[| | | | | |d]|];
    try discriminate; try (by injection Hr as <-).
  destruct (dict_lookup d "status") as [[| | | |s| |]|];
    try (by injection Hr as <-);
    try (destruct (dict_lookup d "error_message");
         [by injection Hr as <- | discriminate]).
  destruct (String.eqb s "error"); [by injection Hr as <-|].
  destruct (String.eqb s "success"); [discriminate|].
  by injection Hr as <-.
Qed.

Lemma success_path_error_payload_witness :
  ~ is_4xx_5xx ok_pending /\
  handle_api_response ok_pending = Raises ok_pending_raised /\
  APIClientError.response_data ok_pending_raised =
    Document (JDict [("status", JStr "pending")]).
Proof.
  assert (H : ~ is_4xx_5xx ok_pending) by (unfold is_4xx_5xx; cbn; lia).
  assert (He : handle_api_response ok_pending = Raises ok_pending_raised)
    by reflexivity.
  split; [exact H|]. split; [exact He|].
  exact (success_path_error_payload ok_pending ok_pending_raised H He).
Defined.

(** X7: outside 400-599 the status code decides nothing: two responses with
    the same text and the same decoded body, a 200 and a 304 say, return
    the same value, or raise client errors with the same message and
    payload. *)
Theorem status_code_irrelevant_outside_error_range (r r' : Response.t) :
  ~ is_4xx_5xx r -> ~ is_4xx_5xx r' ->
  Response.text r = Response.text r' ->
  Response.json r = Response.json r' ->
  match handle_api_response r, handle_api_response r' with
  | Returns data, Returns data' => data = data'
  | Raises e, Raises e' =>
      APIClientError.message e = APIClientError.message e' /\
      APIClientError.response_data e = APIClientError.response_data e'
  | _, _ => False
  end.
Proof.
  intros Hn Hn' Ht Hj.
  rewrite (handle_success_path r Hn), (handle_success_path r' Hn'), Ht, Hj.
  cbn zeta.
  destruct (Response.json r') as [[| | | | | |d]|]; try done.
  destruct (dict_lookup d "status") as [[| | | |s| |]|]; try done;
    try (by destruct (dict_lookup d "error_message")).
  destruct (String.eqb s "error"); [done|].
  by destruct (String.eqb s "success").
Qed.

Lemma status_code_irrelevant_outside_error_range_witness :
  ~ is_4xx_5xx ok_list /\ ~ is_4xx_5xx not_modified_list /\
  match handle_api_response ok_list, handle_api_response not_modified_list with
  | Returns data, Returns data' => data = data'
  | Raises e, Raises e' =>
      APIClientError.message e = APIClientError.message e' /\
      APIClientError.response_data e = APIClientError.response_data e'
  | _, _ => False
  end.
Proof.
  assert (H : ~ is_4xx_5xx ok_list) by (unfold is_4xx_5xx; cbn; lia).
  assert (H' : ~ is_4xx_5xx not_modified_list)
    by (unfold is_4xx_5xx; cbn; lia).
  split; [exact H|]. split; [exact H'|].
  apply (status_code_irrelevant_outside_error_range ok_list not_modified_list
           H H'); reflexivity.
Defined.

(** ** The message of an error response *)

(** X8: on a 4xx/5xx response whose body is a mapping with an
    [error_message] that is not null, the message of the client error is
    that value, whatever [detail] holds. *)
Theorem error_response_prefers_error_message
    (r : Response.t) (d : list (string * json_value)) (m : json_value) :
  is_4xx_5xx r ->
  Response.json r = Some (JDict d) ->
  dict_lookup d "error_message" = Some m ->
  m <> JNull ->
  exists e,
    handle_api_response r = Raises e /\
    APIClientError.message e = m /\
    APIClientError.status_code e = Some (Response.status_code r).
Proof.
  intros H Hj Hm Hn. destruct (handle_error r H) as (http_err & _ & _ & E).
  unfold error_message_of, dict_get in E. rewrite Hj, Hm in E.
  destruct m; try done; cbn in E; eexists; (split; [exact E|]); by split.
Qed.

Lemma error_response_prefers_error_message_witness :
  is_4xx_5xx conflict /\
  exists e,
    handle_api_response conflict = Raises e /\
    APIClientError.message e = JStr "already exists" /\
    APIClientError.status_code e = Some 409.
Proof.
  split; [concrete|].
  apply (error_response_prefers_error_message conflict conflict_body);
    concrete.
Defined.

(** X9: on a 4xx/5xx response whose body is a mapping without
    [error_message] (or with a null one), a [detail] that is not null and
    is not a list of validation errors is the message as it is, string or
    not. *)
Theorem error_response_falls_back_to_detail
    (r : Response.t) (d : list (string * json_value)) (v : json_value) :
  is_4xx_5xx r ->
  Response.json r = Some (JDict d) ->
  unset d "error_message" ->
  dict_lookup d "detail" = Some v ->
  v <> JNull ->
  is_validation_errors v = false ->
  exists e,
    handle_api_response r = Raises e /\
    APIClientError.message e = v /\
    APIClientError.status_code e = Some (Response.status_code r).
Proof.
  intros H Hj Hm Hd Hn Hv.
  destruct (handle_error r H) as (http_err & _ & _ & E).
  unfold error_message_of, dict_get in E. rewrite Hj, Hd in E.
  assert (E' : handle_api_response r =
    Raises (APIClientError.mk v (Some (Response.status_code r))
              (ResponseObject r))).
  { rewrite E. destruct Hm as [-> | ->]; cbn [is_None]; rewrite Hv; cbn;
      by destruct v. }
  eexists. split; [exact E'|]. by split.
Qed.

Lemma error_response_falls_back_to_detail_witness :
  is_4xx_5xx forbidden /\
  exists e,
    handle_api_response forbidden = Raises e /\
    APIClientError.message e = JStr "Not authenticated" /\
    APIClientError.status_code e = Some 403.
Proof.
  split; [concrete|].
  apply (error_response_falls_back_to_detail forbidden forbidden_body);
    [concrete | concrete | by left | concrete | concrete | concrete].
Defined.

(** X10: on a 4xx/5xx response whose decoded body is not a mapping, or is a
    mapping with neither [error_message] nor [detail] (absent or null), the
    message is the [str] of the decoded body. *)
Theorem error_response_falls_back_to_str
    (r : Response.t) (data : json_value) :
  is_4xx_5xx r ->
  Response.json r = Some data ->
  (is_dict data = false \/
   exists d, data = JDict d /\ unset d "error_message" /\ unset d "detail") ->
  exists e,
    handle_api_response r = Raises e /\
    APIClientError.message e = JStr (py_str data) /\
    APIClientError.status_code e = Some (Response.status_code r).
Proof.
  intros H Hj Hs. destruct (handle_error r H) as (http_err & _ & _ & E).
  unfold error_message_of, dict_get in E. rewrite Hj in E.
  assert (E' : handle_api_response r =
    Raises (APIClientError.mk (JStr (py_str data))
              (Some (Response.status_code r)) (ResponseObject r))).
  { rewrite E. destruct Hs as [Hd | (d & -> & Hm & Hd)].
    - by destruct data.
    - by destruct Hm as [-> | ->], Hd as [-> | ->]. }
  eexists. split; [exact E'|]. by split.
Qed.

Lemma error_response_falls_back_to_str_witness :
  is_4xx_5xx teapot /\
  exists e,
    handle_api_response teapot = Raises e /\
    APIClientError.message e = JStr "{'code': 7}" /\
    APIClientError.status_code e = Some 418.
Proof.
  split; [concrete|].
  apply (error_response_falls_back_to_str teapot (JDict teapot_body));
    [concrete | concrete |].
  right. exists teapot_body. split; [reflexivity|]. split; by left.
Defined.

(** X11: on a 4xx/5xx response with an empty text that does not decode, the
    message is the description of the HTTP error: the code, "Client Error"
    below 500 and "Server Error" from 500 on, the reason and the address. *)
Theorem error_response_empty_body_message (r : Response.t) :
  is_4xx_5xx r ->
  Response.json r = None ->
  Response.text r = EmptyString ->
  exists e,
    handle_api_response r = Raises e /\
    APIClientError.message e =
      JStr (pretty (Response.status_code r)
            +:+ (if Response.status_code r <? 500
                 then " Client Error: " else " Server Error: ")
            +:+ Response.reason r +:+ " for url: " +:+ Response.url r) /\
    APIClientError.status_code e = Some (Response.status_code r).
Proof.
  unfold is_4xx_5xx. intros H Hj Ht.
  unfold handle_api_response, raise_for_status, error_message_of.
  rewrite Hj, Ht.
  replace (400 <=? Response.status_code r) with true by lia. cbn [andb].
  destruct (Z.ltb_spec (Response.status_code r) 500).
  - set (msg := _ +:+ " Client Error: " +:+ _).
    assert (Hmsg : msg <> EmptyString) by apply append_nonempty.
    destruct msg; [done|]. eexists. split; [reflexivity|]. by split.
  - replace (500 <=? Response.status_code r) with true by lia.
    replace (Response.status_code r <? 600) with true by lia. cbn [andb].
    set (msg := _ +:+ " Server Error: " +:+ _).
    assert (Hmsg : msg <> EmptyString) by apply append_nonempty.
    destruct msg; [done|]. eexists. split; [reflexivity|]. by split.
Qed.

Lemma error_response_empty_body_message_witness :
  is_4xx_5xx gateway_timeout /\
  exists e,
    handle_api_response gateway_timeout = Raises e /\
    APIClientError.message e =
      JStr "504 Server Error: Gateway Timeout for url: http://127.0.0.1:8084/infra" /\
    APIClientError.status_code e = Some 504.
Proof.
  split; [concrete|].
  apply (error_response_empty_body_message gateway_timeout); concrete.
Defined.

(** ** When an exception escapes *)








Lemma returns_iff_accepted_body_witness :
  handle_api_response ok_legacy = Returns (JDict legacy_body).
Proof.
  apply (returns_iff_accepted_body ok_legacy (JDict legacy_body)).
  split; [unfold is_4xx_5xx; cbn; lia|]. split; reflexivity.
Defined.


(** ** The requests of all the invokers *)

(** X13: every invoker sends its request to its own path under the base
    address with its own method; a GET request has no JSON body and a POST
    request has a JSON body and no query parameters. *)
Theorem request_shape (c : invocation) :
  Request.endpoint (request_of c) = BASE_URL +:+ Tool.path (tool_of c) /\
  Request.method (request_of c) = Tool.method (tool_of c) /\
  match Request.method (request_of c) with
  | GET => Request.json (request_of c) = None
  | POST =>
      Request.params (request_of c) = None /\
      is_Some (Request.json (request_of c))
  end.
Proof. destruct c; repeat split; by eauto. Qed.

(** X14: an argument that is given and is not the empty string reaches the
    request under the name of its parameter and with its value; an
    argument that is not given leaves no entry under its name. *)
Theorem passed_argument_is_carried
    (c : invocation) (k : string) (a : option string) :
  (k, a) ∈ passed c ->
  a <> Some EmptyString ->
  carried (request_of c) k = a.
Proof.
  intros Hin Ha. destruct c; cbn [passed] in Hin; members Hin;
    request_fields; repeat case_match; simplify_eq; lookups.
Qed.

Lemma passed_argument_is_carried_witness :
  carried (request_of (Call_jenkinsfile_gen "/srv/app" (Some "web") None
                         (Some EmptyString))) "app_name" = Some "web"
  /\ carried (request_of (Call_jenkinsfile_gen "/srv/app" (Some "web") None
                            (Some EmptyString))) "port" = None.
Proof.
  split.
  - apply (passed_argument_is_carried
             (Call_jenkinsfile_gen "/srv/app" (Some "web") None
                (Some EmptyString)) "app_name" (Some "web")); [|done].
    apply elem_of_cons. right. apply elem_of_cons. by left.
  - apply (passed_argument_is_carried
             (Call_jenkinsfile_gen "/srv/app" (Some "web") None
                (Some EmptyString)) "port" None); [|done].
    apply elem_of_cons. right. apply elem_of_cons. right.
    apply elem_of_cons. by left.
Defined.

(** X15: an argument given as the empty string is sent as the empty string
    by every invoker, [call_analyzer] included; only the three optional
    arguments of [call_jenkinsfile_gen] are dropped when empty. *)
Theorem empty_argument_is_carried (c : invocation) (k : string) :
  (k, Some EmptyString) ∈ passed c ->
  carried (request_of c) k =
    if tested_for_truth c k then None else Some EmptyString.
Proof.
  intros Hin. destruct c; cbn [passed] in Hin; members Hin;
    request_fields; cbn [tested_for_truth]; cbn [String.eqb Ascii.eqb
      Bool.eqb orb]; repeat case_match; simplify_eq; lookups.
Qed.

Lemma empty_argument_is_carried_witness :
  carried (request_of (Call_analyzer (Some EmptyString) None)) "folder_path"
    = Some EmptyString
  /\ carried (request_of (Call_jenkinsfile_gen EmptyString None
                            (Some EmptyString) None)) "port" = None
  /\ carried (request_of (Call_jenkinsfile_gen EmptyString None
                            (Some EmptyString) None)) "folder_path"
       = Some EmptyString.
Proof.
  split; [|split].
  - apply (empty_argument_is_carried
             (Call_analyzer (Some EmptyString) None) "folder_path").
    apply elem_of_cons. by left.
  - apply (empty_argument_is_carried
             (Call_jenkinsfile_gen EmptyString None (Some EmptyString) None)
             "port").
    apply elem_of_cons. right. apply elem_of_cons. right.
    apply elem_of_cons. by left.
  - apply (empty_argument_is_carried
             (Call_jenkinsfile_gen EmptyString None (Some EmptyString) None)
             "folder_path").
    apply elem_of_cons. by left.
Defined.

(** X16: a request carries nothing but arguments: whatever value it holds
    under a name is the argument the call was given under that name. *)
Theorem carried_value_is_an_argument
    (c : invocation) (k v : string) :
  carried (request_of c) k = Some v ->
  (k, Some v) ∈ passed c.
Proof.
  destruct c; request_fields; intros H; repeat case_match; simplify_eq;
    repeat match goal with
    | H : <[_:=_]> _ !! _ = Some _ |- _ =>
        apply lookup_insert_Some in H as [[<- <-] | [? H]]
    | H : {[_ := _]} !! _ = Some _ |- _ =>
        apply lookup_singleton_Some in H as [<- <-]
    | H : ∅ !! _ = Some _ |- _ => by rewrite lookup_empty in H
    | H : _ !! _ = None |- _ => clear H
    end;
    cbn [passed]; rewrite ?elem_of_cons; tauto.
Qed.

Lemma carried_value_is_an_argument_witness :
  carried (request_of (Call_infra "/srv/tf" "t2.micro")) "instance_size"
    = Some "t2.micro"
  /\ ("instance_size", Some "t2.micro")
       ∈ passed (Call_infra "/srv/tf" "t2.micro").
Proof.
  assert (H : carried (request_of (Call_infra "/srv/tf" "t2.micro"))
                "instance_size" = Some "t2.micro") by (vm_compute; reflexivity).
  split; [exact H|].
  exact (carried_value_is_an_argument (Call_infra "/srv/tf" "t2.micro")
           "instance_size" "t2.micro" H).
Defined.

(** ** The payload of an error response *)

(** X17: whenever a 4xx/5xx response raises the client error, the payload
    of the error is the response object itself, whatever the body. *)
Theorem error_payload_is_the_response (r : Response.t) (e : APIClientError.t) :
  is_4xx_5xx r ->
  handle_api_response r = Raises e ->
  APIClientError.response_data e = ResponseObject r.
Proof.
  intros H He. destruct (handle_error r H) as (http_err & Hr & _ & E).
  rewrite E in He. destruct (error_message_of r http_err) as [m|x];
    [|discriminate].
  injection He as <-. reflexivity.
Qed.

Lemma error_payload_is_the_response_witness :
  is_4xx_5xx forbidden /\
  handle_api_response forbidden =
    Raises (APIClientError.mk (JStr "Not authenticated") (Some 403)
              (ResponseObject forbidden)) /\
  APIClientError.response_data
    (APIClientError.mk (JStr "Not authenticated") (Some 403)
       (ResponseObject forbidden)) = ResponseObject forbidden.
Proof.
  assert (H : is_4xx_5xx forbidden) by concrete.
  assert (He : handle_api_response forbidden =
    Raises (APIClientError.mk (JStr "Not authenticated") (Some 403)
              (ResponseObject forbidden))) by reflexivity.
  split; [exact H|]. split; [exact He|].
  exact (error_payload_is_the_response forbidden _ H He).
Defined.
